(** * nbs/pricing.py: American call pricing through QuantLib, implied
      volatility through scipy's [newton]

    The module is a thin client of two foreign libraries.  Everything the
    Python code does itself is embedded below as executable definitions:
    the float arithmetic ([t * 365], [price - target_price]), the
    conversion [int(...)], the list comprehension, the [zip] loop, the
    write to the process-wide evaluation date, and the [try]/[except].

    What the foreign libraries do is a parameter:
    - a QuantLib object is the term of the constructor call that built it;
      a [QuantLib] instance says which constructor calls raise and what
      [NPV()] returns under given settings.  Constructor calls neither read
      nor write the settings; the module's own assignment to
      [evaluationDate] is the only write;
    - [scipy.optimize.newton] is a search strategy: a well-founded tree
      that asks for values of its callback and ends by returning a number
      or raising.  An exception of the callback leaves [newton] as it
      is. *)

From Stdlib Require Import ZArith List Lia Bool QArith Qround Qpower.
From Stdlib Require Strings.String.
Import String.StringSyntax.
Delimit Scope string_scope with string.
From Stdlib Require Import Floats.PrimFloat Floats.SpecFloat Floats.FloatOps.
Import ListNotations.

Set Implicit Arguments.

(** ** Python exceptions and results

    An exception is kept as its class: the name of the class and the names
    of the classes it inherits from.  Any class can be written down, those
    of a library included. *)

Record exn : Type := Exception {
  exn_class : String.string;
  exn_bases : list String.string
}.

Open Scope string_scope.

Definition ValueError : exn :=
  Exception "ValueError" ["Exception"; "BaseException"].

Definition OverflowError : exn :=
  Exception "OverflowError"
    ["ArithmeticError"; "Exception"; "BaseException"].

Definition TypeError : exn :=
  Exception "TypeError" ["Exception"; "BaseException"].

Definition AttributeError : exn :=
  Exception "AttributeError" ["Exception"; "BaseException"].

Definition RuntimeError : exn :=
  Exception "RuntimeError" ["Exception"; "BaseException"].

Definition NotImplementedError : exn :=
  Exception "NotImplementedError"
    ["RuntimeError"; "Exception"; "BaseException"].

Close Scope string_scope.

(** [isinstance(e, C)]: the class of [e] is [C] or inherits from it. *)
Definition isinstance (e C : exn) : bool :=
  existsb (String.eqb (exn_class C)) (exn_class e :: exn_bases e).

Inductive result (A : Type) : Type :=
| Ok (a : A)
| Raise (e : exn).

Arguments Ok {A} a.
Arguments Raise {A} e.

(** ** Python floats

    A Python [float] is an IEEE binary64 number: [PrimFloat.float]. *)

(** [int(x)] for a float [x]: truncation toward zero; [ValueError] on NaN,
    [OverflowError] on an infinity.  A finite non-zero float is
    [(-1)^s * m * 2^e]; [Z.shiftl] by a negative amount shifts right. *)
Definition py_int (x : float) : result Z :=
  match Prim2SF x with
  | S754_nan => Raise ValueError
  | S754_infinity _ => Raise OverflowError
  | S754_zero _ => Ok 0%Z
  | S754_finite s m e =>
      let a := Z.shiftl (Z.pos m) e in
      Ok (if s then Z.opp a else a)
  end.

(** The exact rational value of a finite float. *)
Definition float_value (x : float) : option Q :=
  match Prim2SF x with
  | S754_zero _ => Some 0%Q
  | S754_finite s m e =>
      Some (inject_Z (if s then Z.neg m else Z.pos m) * Qpower 2 e)%Q
  | _ => None
  end.

(** [t * 365] with [t] a float: the integer is converted exactly. *)
Definition times_365 (t : float) : float := PrimFloat.mul t 365%float.

(** ** QuantLib objects

    Python is dynamically typed; one type of terms covers every QuantLib
    object the module builds.  The constructors are named after the
    QuantLib classes, the arguments after theirs. *)

Inductive TimeUnit : Type := Days.
Inductive OptionType : Type := Call.

#[local] Unset Elimination Schemes.

Inductive obj : Type :=
| Date (d m y : Z)
| Period (n : Z) (units : TimeUnit)
| DatePlus (date period : obj)  (* [date + period] *)
| Actual365Fixed
| NullCalendar
| SimpleQuote (value : float)
| QuoteHandle (quote : obj)
| FlatForward (referenceDate : obj) (forward : float) (dayCounter : obj)
| YieldTermStructureHandle (ts : obj)
| BlackConstantVol (referenceDate calendar : obj) (volatility : float)
    (dayCounter : obj)
| BlackVolTermStructureHandle (ts : obj)
| PlainVanillaPayoff (type : OptionType) (strike : float)
| AmericanExercise (earliestDate latestDate : obj)
| VanillaOption (payoff exercise : obj) (pricingEngine : option obj)
| BlackScholesMertonProcess (x0 dividendTS riskFreeTS volTS : obj)
| FixedDividend (amount : float) (date : obj)
| DividendSchedule (dividends : list obj)
| FDAmericanEngine (process : obj) (timeSteps gridPoints : Z)
    (dividendSchedule : obj).

#[local] Set Elimination Schemes.

(** [ql.Settings.instance()]: the process-wide settings object.  [None] is
    the state in which no evaluation date was ever assigned. *)
Record Settings : Type := { evaluationDate : option obj }.

(** What the library does: [rejects o] is the exception raised by the
    constructor call (or operator) that would build [o], if any; [NPV]
    prices an option under the current settings. *)
Record QuantLib : Type := {
  rejects : obj -> option exn;
  NPV : Settings -> obj -> result float
}.

(** ** State and exceptions

    A computation reads and writes the settings and ends with a value or
    an exception; what was written before an exception stays written. *)

Definition M (A : Type) : Type := Settings -> result A * Settings.

Definition ret {A} (a : A) : M A := fun s => (Ok a, s).

Definition raise {A} (e : exn) : M A := fun s => (Raise e, s).

Definition bind {A B} (c : M A) (k : A -> M B) : M B :=
  fun s =>
    match c s with
    | (Ok a, s') => k a s'
    | (Raise e, s') => (Raise e, s')
    end.

Definition lift {A} (r : result A) : M A := fun s => (r, s).

(** [try: c except E: h]: the handler takes the exceptions that are
    instances of [E]. *)
Definition try_except {A} (c : M A) (E : exn) (h : M A) : M A :=
  fun s =>
    match c s with
    | (Ok a, s') => (Ok a, s')
    | (Raise e, s') => if isinstance e E then h s' else (Raise e, s')
    end.

Declare Scope py_scope.
Delimit Scope py_scope with py.
Notation "x <- c ;; k" := (bind c (fun x => k))
  (at level 61, c at next level, right associativity) : py_scope.
Notation "c ;;; k" := (bind c (fun _ => k))
  (at level 61, right associativity) : py_scope.
Open Scope py_scope.

(** ** The pricer *)

Section Pricer.

Variable ql : QuantLib.

(** A constructor call of the library. *)
Definition new (o : obj) : M obj :=
  lift (match rejects ql o with
        | Some e => Raise e
        | None => Ok o
        end).

(** [ql.Settings.instance().evaluationDate = d] *)
Definition set_evaluationDate (d : obj) : M unit :=
  fun _ => (Ok tt, {| evaluationDate := Some d |}).

(** [option.setPricingEngine(engine)] *)
Definition setPricingEngine (o engine : obj) : obj :=
  match o with
  | VanillaOption payoff exercise _ =>
      VanillaOption payoff exercise (Some engine)
  | _ => o
  end.

(** [dividend_schedule.append(d)] *)
Definition append (schedule d : obj) : obj :=
  match schedule with
  | DividendSchedule l => DividendSchedule (l ++ [d])
  | _ => schedule
  end.

(** [option.NPV()] *)
Definition option_NPV (o : obj) : M float :=
  fun s => (NPV ql s o, s).

(** [calculation_date + ql.Period(int(t * 365), ql.Days)], lines 45, 54 *)
Definition days_after (calculation_date : obj) (t : float) : M obj :=
  n <- lift (py_int (times_365 t)) ;;
  period <- new (Period n Days) ;;
  new (DatePlus calculation_date period).

(** The list comprehension of line 54. *)
Fixpoint dividend_dates (calculation_date : obj)
    (dividend_times : list float) : M (list obj) :=
  match dividend_times with
  | [] => ret []
  | t :: rest =>
      date <- days_after calculation_date t ;;
      dates <- dividend_dates calculation_date rest ;;
      ret (date :: dates)
  end.

(** The loop of lines 58-59 over [zip(dividend_dates_ql, dividends)]. *)
Fixpoint append_dividends (pairs : list (obj * float))
    (dividend_schedule : obj) : M obj :=
  match pairs with
  | [] => ret dividend_schedule
  | (date, div) :: rest =>
      d <- new (FixedDividend div date) ;;
      append_dividends rest (append dividend_schedule d)
  end.

(** Lines 26-62: everything up to [option.setPricingEngine(engine)]. *)
Definition american_call_option
    (spot strike rate div_yield maturity volatility : float)
    (dividends dividend_times : list float) : M obj :=
  calculation_date <- new (Date 1 1 2024) ;;
  set_evaluationDate calculation_date ;;;
  day_count <- new Actual365Fixed ;;
  calendar <- new NullCalendar ;;
  quote <- new (SimpleQuote spot) ;;
  spot_handle <- new (QuoteHandle quote) ;;
  rate_ts <- new (FlatForward calculation_date rate day_count) ;;
  rate_handle <- new (YieldTermStructureHandle rate_ts) ;;
  div_ts <- new (FlatForward calculation_date div_yield day_count) ;;
  div_yield_handle <- new (YieldTermStructureHandle div_ts) ;;
  vol_ts <- new (BlackConstantVol calculation_date calendar volatility
                   day_count) ;;
  volatility_handle <- new (BlackVolTermStructureHandle vol_ts) ;;
  payoff <- new (PlainVanillaPayoff Call strike) ;;
  latest <- days_after calculation_date maturity ;;
  exercise <- new (AmericanExercise calculation_date latest) ;;
  opt <- new (VanillaOption payoff exercise None) ;;
  process <- new (BlackScholesMertonProcess spot_handle div_yield_handle
                    rate_handle volatility_handle) ;;
  dividend_dates_ql <- dividend_dates calculation_date dividend_times ;;
  empty_schedule <- new (DividendSchedule []) ;;
  dividend_schedule <-
    append_dividends (combine dividend_dates_ql dividends) empty_schedule ;;
  engine <- new (FDAmericanEngine process 100 100 dividend_schedule) ;;
  ret (setPricingEngine opt engine).

(** Line 64: [return option.NPV()]. *)
Definition price_american_call_pde
    (spot strike rate div_yield maturity volatility : float)
    (dividends dividend_times : list float) : M float :=
  opt <- american_call_option spot strike rate div_yield maturity volatility
           dividends dividend_times ;;
  option_NPV opt.

End Pricer.

(** ** scipy.optimize.newton

    [newton(func, x0, tol=..., maxiter=...)] decides, from the values of
    [func] it has seen, where to evaluate next, and ends by returning a
    number or by raising; an exception raised by [func] passes through it.
    [None] for a keyword argument means that the caller did not give it. *)

Inductive strategy : Type :=
| Returns (x : float)
| Raises (e : exn)
| Evaluate (x : float) (k : float -> strategy).

Fixpoint run (st : strategy) (func : float -> M float) : M float :=
  match st with
  | Returns x => ret x
  | Raises e => raise e
  | Evaluate x k => y <- func x ;; run (k y) func
  end.

Record SciPy : Type := {
  newton : float -> option float -> option Z -> strategy
}.

(** ** The implied-volatility solver *)

Section Solver.

Variable ql : QuantLib.
Variable scipy : SciPy.

(** Lines 87-91, the closure passed to [newton]. *)
Definition objective_function
    (target_price spot strike rate div_yield maturity : float)
    (dividends dividend_times : list float) (vol : float) : M float :=
  price <- price_american_call_pde ql spot strike rate div_yield maturity vol
             dividends dividend_times ;;
  ret (PrimFloat.sub price target_price).

(** Lines 95-99.  The result [None] is Python's [None]. *)
Definition implied_volatility_american_call_pde
    (target_price spot strike rate div_yield maturity : float)
    (dividends dividend_times : list float) (guess : float)
    : M (option float) :=
  try_except
    (implied_vol <-
       run (newton scipy guess None None)
         (objective_function target_price spot strike rate div_yield maturity
            dividends dividend_times) ;;
     ret (Some implied_vol))
    RuntimeError
    (ret None).

End Solver.

(** The default of the last parameter, [guess=0.2]. *)
Definition default_guess : float := 0x1.999999999999ap-3%float.

(** ** Sample libraries

    The theorems below hold for every [QuantLib] and every [SciPy].  To
    run the definitions on concrete inputs, here is a small library of
    each kind. *)

(** The number of days of the exercise window of an option. *)
Definition exercise_days (o : obj) : option Z :=
  match o with
  | VanillaOption _ (AmericanExercise _ (DatePlus _ (Period n _))) _ => Some n
  | _ => None
  end.

(** The grid resolution of the engine of an option. *)
Definition engine_resolution (o : obj) : option (Z * Z) :=
  match o with
  | VanillaOption _ _ (Some (FDAmericanEngine _ timeSteps gridPoints _)) =>
      Some (timeSteps, gridPoints)
  | _ => None
  end.

Definition fmax (a b : float) : float :=
  if PrimFloat.ltb a b then b else a.

(** A library that accepts every call, values an option whose exercise
    window is empty at zero and any other option at its exercise value plus
    a term that grows with the size of the volatility.  The numbers stand
    for no engine of QuantLib; they serve to run the definitions. *)
Definition sample_NPV (_ : Settings) (o : obj) : result float :=
  match o with
  | VanillaOption (PlainVanillaPayoff Call strike)
      (AmericanExercise _ (DatePlus _ (Period n _)))
      (Some (FDAmericanEngine
               (BlackScholesMertonProcess (QuoteHandle (SimpleQuote spot)) _ _
                  (BlackVolTermStructureHandle
                     (BlackConstantVol _ _ volatility _))) _ _ _)) =>
      if (n =? 0)%Z then Ok 0%float
      else Ok (fmax (spot - strike) 0
               + 0.25 * spot * PrimFloat.abs volatility)%float
  | _ => Raise TypeError
  end.

Definition sample_ql : QuantLib :=
  {| rejects := fun _ => None; NPV := sample_NPV |}.

(** The same library, except that it refuses, with [RuntimeError], an
    exercise whose last date lies before its first. *)
Definition strict_rejects (o : obj) : option exn :=
  match o with
  | AmericanExercise _ (DatePlus _ (Period n _)) =>
      if (n <? 0)%Z then Some RuntimeError else None
  | _ => None
  end.

Definition strict_ql : QuantLib :=
  {| rejects := strict_rejects; NPV := sample_NPV |}.

(** A QuantLib that has no [FDAmericanEngine]: line 61 raises
    [AttributeError].  It refuses an exercise whose last date lies before
    its first with [RuntimeError] and accepts every other call; an option
    never gets an engine, so that [NPV()] has nothing to value. *)
Definition engineless_rejects (o : obj) : option exn :=
  match o with
  | FDAmericanEngine _ _ _ _ => Some AttributeError
  | _ => strict_rejects o
  end.

Definition engineless_ql : QuantLib :=
  {| rejects := engineless_rejects; NPV := fun _ _ => Raise RuntimeError |}.

(** A secant search in the manner of [newton] without a derivative: two
    starting points next to [x0], at most [maxiter] secant steps, success
    when two successive iterates are within [tol], [RuntimeError] when the
    secant is flat or the steps are used up. *)
Fixpoint secant_steps (steps : nat) (tol p0 q0 p1 q1 : float) : strategy :=
  match steps with
  | O => Raises RuntimeError
  | S steps' =>
      if PrimFloat.eqb q1 q0 then
        if PrimFloat.eqb p1 p0 then Returns ((p1 + p0) / 2)%float
        else Raises RuntimeError
      else
        let p :=
          if PrimFloat.ltb (PrimFloat.abs q0) (PrimFloat.abs q1)
          then ((- q0 / q1 * p1 + p0) / (1 - q0 / q1))%float
          else ((- q1 / q0 * p0 + p1) / (1 - q1 / q0))%float in
        if PrimFloat.leb (PrimFloat.abs (p - p1)) tol then Returns p
        else Evaluate p (fun q => secant_steps steps' tol p1 q1 p q)
  end.

Definition secant (x0 : float) (tol : option float) (maxiter : option Z)
    : strategy :=
  let tol :=
    match tol with
    | Some t => t
    | None => 0x1.fc862d3e1736p-27%float (* 1.48e-08 *)
    end in
  let maxiter :=
    match maxiter with
    | Some n => Z.to_nat n
    | None => 50%nat
    end in
  let eps := 0x1.a36e2eb1c432dp-14%float (* 1e-4 *) in
  let p1 :=
    (x0 * (1 + eps) + (if PrimFloat.ltb x0 0 then - eps else eps))%float in
  Evaluate x0 (fun q0 =>
  Evaluate p1 (fun q1 =>
    if PrimFloat.ltb (PrimFloat.abs q1) (PrimFloat.abs q0)
    then secant_steps maxiter tol p1 q1 x0 q0
    else secant_steps maxiter tol x0 q0 p1 q1)).

Definition sample_scipy : SciPy := {| newton := secant |}.

Definition unset : Settings := {| evaluationDate := None |}.

(** A [newton] that pays no attention to [tol] and [maxiter]. *)
Definition plain_scipy : SciPy :=
  {| newton := fun x0 _ _ => secant x0 None None |}.

(** ** Vocabulary of the properties *)

(** Line 26, and the settings after line 27. *)
Definition calculation_date : obj := Date 1 1 2024.

Definition dated : Settings := {| evaluationDate := Some calculation_date |}.

(** [outcome c P R]: from every state, [c] ends with a value satisfying [P]
    or with an exception satisfying [R]. *)
Definition outcome {A} (c : M A) (P : A -> Prop) (R : exn -> Prop) : Prop :=
  forall s, match fst (c s) with
            | Ok a => P a
            | Raise e => R e
            end.

(** [preserves c]: [c] leaves the settings as they are. *)
Definition preserves {A} (c : M A) : Prop :=
  forall s, snd (c s) = s.

(** Two computations that end alike from every state. *)
Definition same {A} (c1 c2 : M A) : Prop :=
  forall s, c1 s = c2 s.

(** Two computations that raise alike and whose values are related. *)
Definition related {A B} (Rel : A -> B -> Prop) (c1 : M A) (c2 : M B) : Prop :=
  forall s, match c1 s, c2 s with
            | (Ok a, s1), (Ok b, s2) => Rel a b /\ s1 = s2
            | (Raise e1, s1), (Raise e2, s2) => e1 = e2 /\ s1 = s2
            | _, _ => False
            end.

(** [from_fixed_date ql c]: [c] either stops at the construction of the
    calculation date, or goes on from settings that hold this date, to an
    end that does not depend on the settings it started from. *)
Definition from_fixed_date (ql : QuantLib) {A} (c : M A) : Prop :=
  exists r : result A,
    forall s0,
      c s0 = match rejects ql calculation_date with
             | Some e => (Raise e, s0)
             | None => (r, dated)
             end.

(** The exception [e] is one that a call of the library raises. *)
Definition library_raises (ql : QuantLib) (e : exn) : Prop :=
  (exists o, rejects ql o = Some e) \/ (exists s o, NPV ql s o = Raise e).

(** The exception [e] is raised by [int(t * 365)] for one of the [ts]. *)
Definition int_raises (ts : list float) (e : exn) : Prop :=
  exists t, In t ts /\ py_int (times_365 t) = Raise e.

(** The time [t] becomes a date without an exception. *)
Definition converts (ql : QuantLib) (d : obj) (t : float) : Prop :=
  exists n, py_int (times_365 t) = Ok n
            /\ rejects ql (Period n Days) = None
            /\ rejects ql (DatePlus d (Period n Days)) = None.

(** The date of a day count, as lines 45 and 54 build it. *)
Definition date_after (d : obj) (n : Z) : obj := DatePlus d (Period n Days).

(** The dividends of lines 58-59, for the day counts of the dividend times:
    the i-th amount with the i-th date, as far as both lists go. *)
Definition scheduled_dividends (d : obj) (ns : list Z)
    (dividends : list float) : list obj :=
  map (fun p => FixedDividend (snd p) (date_after d (fst p)))
    (combine ns dividends).

(** The dividend schedule of the engine of an option. *)
Definition schedule_of (o : obj) : option (list obj) :=
  match o with
  | VanillaOption _ _ (Some (FDAmericanEngine _ _ _ (DividendSchedule l))) =>
      Some l
  | _ => None
  end.

(** The payoff, the exercise and the process of an option. *)
Definition contract_of (o : obj) : option (obj * obj * obj) :=
  match o with
  | VanillaOption payoff exercise (Some (FDAmericanEngine process _ _ _)) =>
      Some (payoff, exercise, process)
  | _ => None
  end.

(** ** The steps of the pricer

    What lines 26-61 ask for, one after the other: the construction of an
    object of the library, or the conversion [int(t * 365)]. *)

Inductive step : Type :=
| Construct (o : obj)
| Convert (t : float).

(** The exception with which a step fails, if it does. *)
Definition step_error (ql : QuantLib) (st : step) : option exn :=
  match st with
  | Construct o => rejects ql o
  | Convert t =>
      match py_int (times_365 t) with
      | Ok _ => None
      | Raise e => Some e
      end
  end.

(** The exception of the first step that fails. *)
Fixpoint first_error (ql : QuantLib) (steps : list step) : option exn :=
  match steps with
  | [] => None
  | st :: rest =>
      match step_error ql st with
      | Some e => Some e
      | None => first_error ql rest
      end
  end.

(** The day count of a time; it is used only after the conversion has
    succeeded. *)
Definition days (t : float) : Z :=
  match py_int (times_365 t) with
  | Ok n => n
  | Raise _ => 0%Z
  end.

(** The steps of [calculation_date + ql.Period(int(t * 365), ql.Days)]. *)
Definition date_steps (d : obj) (t : float) : list step :=
  [Convert t; Construct (Period (days t) Days);
   Construct (date_after d (days t))].

Definition built_rate_ts (r : float) : obj :=
  FlatForward calculation_date r Actual365Fixed.

Definition built_vol_ts (volatility : float) : obj :=
  BlackConstantVol calculation_date NullCalendar volatility Actual365Fixed.

Definition built_process (spot rate div_yield volatility : float) : obj :=
  BlackScholesMertonProcess (QuoteHandle (SimpleQuote spot))
    (YieldTermStructureHandle (built_rate_ts div_yield))
    (YieldTermStructureHandle (built_rate_ts rate))
    (BlackVolTermStructureHandle (built_vol_ts volatility)).

Definition built_exercise (maturity : float) : obj :=
  AmericanExercise calculation_date
    (date_after calculation_date (days maturity)).

Definition built_engine (spot rate div_yield volatility : float)
    (dividends dividend_times : list float) : obj :=
  FDAmericanEngine (built_process spot rate div_yield volatility) 100 100
    (DividendSchedule
       (scheduled_dividends calculation_date (map days dividend_times)
          dividends)).

(** The option of line 62, when every step has succeeded. *)
Definition built_option
    (spot strike rate div_yield maturity volatility : float)
    (dividends dividend_times : list float) : obj :=
  VanillaOption (PlainVanillaPayoff Call strike) (built_exercise maturity)
    (Some (built_engine spot rate div_yield volatility dividends
             dividend_times)).

(** The steps of lines 26-61, in the order of the source. *)
Definition pricer_steps
    (spot strike rate div_yield maturity volatility : float)
    (dividends dividend_times : list float) : list step :=
  Construct calculation_date
  :: Construct Actual365Fixed
  :: Construct NullCalendar
  :: Construct (SimpleQuote spot)
  :: Construct (QuoteHandle (SimpleQuote spot))
  :: Construct (built_rate_ts rate)
  :: Construct (YieldTermStructureHandle (built_rate_ts rate))
  :: Construct (built_rate_ts div_yield)
  :: Construct (YieldTermStructureHandle (built_rate_ts div_yield))
  :: Construct (built_vol_ts volatility)
  :: Construct (BlackVolTermStructureHandle (built_vol_ts volatility))
  :: Construct (PlainVanillaPayoff Call strike)
  :: date_steps calculation_date maturity
  ++ Construct (built_exercise maturity)
  :: Construct (VanillaOption (PlainVanillaPayoff Call strike)
                  (built_exercise maturity) None)
  :: Construct (built_process spot rate div_yield volatility)
  :: flat_map (date_steps calculation_date) dividend_times
  ++ Construct (DividendSchedule [])
  :: map Construct
       (scheduled_dividends calculation_date (map days dividend_times)
          dividends)
  ++ [Construct (built_engine spot rate div_yield volatility dividends
                   dividend_times)].

(** [runs ql c steps a]: [c] ends with the exception of the first of the
    [steps] that fails, and with [a] when none does. *)
Definition runs (ql : QuantLib) {A} (c : M A) (steps : list step) (a : A)
    : Prop :=
  forall s, fst (c s) = match first_error ql steps with
                        | Some e => Raise e
                        | None => Ok a
                        end.

(** ** The search without the settings *)




(** ** The script of the module

    Lines 4 and 101-124 run when the module is loaded.  A printed line is
    kept as the kind of line and the number it shows. *)

Inductive line : Type :=
| VersionLine                    (* line 4 *)
| PriceLine (option_price : float)   (* line 114 *)
| VolatilityLine (implied_vol : float)  (* line 122 *)
| FailedLine.                    (* line 124 *)

(** What the script has printed, how it ended and the settings it leaves.
    The numbers are those of lines 102-109 and 116-118: 0.05, 0.02, 0.2 and
    1.05 are the nearest floats. *)
Definition module_script (ql : QuantLib) (scipy : SciPy) (s : Settings)
    : list line * result unit * Settings :=
  let spot := 100%float in
  let strike := 100%float in
  let rate := 0x1.999999999999ap-5%float in
  let div_yield := 0x1.47ae147ae147bp-6%float in
  let maturity := 1%float in
  let volatility := 0x1.999999999999ap-3%float in
  let dividends := [2; 1.5]%float in
  let dividend_times := [0.25; 0.75]%float in
  match price_american_call_pde ql spot strike rate div_yield maturity
          volatility dividends dividend_times s with
  | (Raise e, s1) => ([VersionLine], Raise e, s1)
  | (Ok option_price, s1) =>
      let target_price :=
        PrimFloat.mul option_price 0x1.0cccccccccccdp+0%float in
      match implied_volatility_american_call_pde ql scipy target_price spot
              strike rate div_yield maturity dividends dividend_times
              0x1.999999999999ap-3%float s1 with
      | (Raise e, s2) => ([VersionLine; PriceLine option_price], Raise e, s2)
      | (Ok (Some implied_vol), s2) =>
          ([VersionLine; PriceLine option_price; VolatilityLine implied_vol],
           Ok tt, s2)
      | (Ok None, s2) =>
          ([VersionLine; PriceLine option_price; FailedLine], Ok tt, s2)
      end
  end.

(** * Properties *)

Unset Implicit Arguments.

(** ** [int] of a float *)

Lemma dyadic_floor (m : positive) (e : Z) :
  Qfloor (inject_Z (Z.pos m) * Qpower 2 e) = Z.shiftl (Z.pos m) e.
Proof.
  destruct (Z_le_gt_dec 0 e) as [He|He].
  - rewrite Z.shiftl_mul_pow2 by assumption.
    rewrite <- (Qfloor_Z (Z.pos m * 2 ^ e)). apply Qfloor_comp.
    rewrite inject_Z_mult. rewrite (Zpower_Qpower 2 e) by assumption.
    reflexivity.
  - rewrite Z.shiftl_div_pow2 by lia. rewrite Zdiv_Qdiv. apply Qfloor_comp.
    unfold Qdiv. rewrite (Zpower_Qpower 2 (- e)) by lia.
    rewrite <- Qpower_opp. rewrite Z.opp_involutive. reflexivity.
Qed.

Lemma dyadic_pos (m : positive) (e : Z) :
  (0 < inject_Z (Z.pos m) * Qpower 2 e)%Q.
Proof.
  apply Qmult_lt_0_compat.
  - reflexivity.
  - apply Qpower_0_lt. reflexivity.
Qed.

Lemma dyadic_neg (m : positive) (e : Z) :
  (inject_Z (Z.neg m) * Qpower 2 e == - (inject_Z (Z.pos m) * Qpower 2 e))%Q.
Proof.
  change (Z.neg m) with (- Z.pos m)%Z. rewrite inject_Z_opp. ring.
Qed.

(** [int] rounds toward zero: down for a float that is not negative. *)
Lemma py_int_floor (x : float) (q : Q) :
  float_value x = Some q -> (0 <= q)%Q -> py_int x = Ok (Qfloor q).
Proof.
  unfold float_value, py_int.
  destruct (Prim2SF x) as [ | | |sg m e]; try discriminate.
  - intros [= <-] _. reflexivity.
  - intros [= <-] Hq. destruct sg.
    + exfalso. rewrite dyadic_neg in Hq.
      pose proof (dyadic_pos m e) as Hp.
      apply (Qlt_irrefl 0). eapply Qlt_le_trans; [exact Hp|].
      rewrite <- (Qopp_involutive (inject_Z (Z.pos m) * 2 ^ e)).
      change 0%Q with (- 0)%Q. apply Qopp_le_compat. exact Hq.
    + cbv beta iota zeta. rewrite dyadic_floor. reflexivity.
Qed.

(** ... and up for a float that is not positive. *)
Lemma py_int_ceiling (x : float) (q : Q) :
  float_value x = Some q -> (q <= 0)%Q -> py_int x = Ok (Qceiling q).
Proof.
  unfold float_value, py_int.
  destruct (Prim2SF x) as [ | | |sg m e]; try discriminate.
  - intros [= <-] _. reflexivity.
  - intros [= <-] Hq. destruct sg.
    + cbv beta iota zeta. unfold Qceiling. f_equal. f_equal.
      rewrite <- dyadic_floor. apply Qfloor_comp.
      rewrite dyadic_neg. rewrite Qopp_involutive. reflexivity.
    + exfalso. pose proof (dyadic_pos m e) as Hp.
      apply (Qlt_irrefl 0). eapply Qlt_le_trans; [exact Hp | exact Hq].
Qed.

Lemma floor_small (q : Q) : (0 <= q)%Q -> (q < 1)%Q -> Qfloor q = 0%Z.
Proof.
  intros H0 H1.
  assert (A : (0 <= Qfloor q)%Z).
  { change 0%Z with (Qfloor 0). apply Qfloor_resp_le. assumption. }
  assert (B : (Qfloor q < 1)%Z).
  { rewrite Zlt_Qlt. eapply Qle_lt_trans; [apply Qfloor_le | assumption]. }
  lia.
Qed.

Lemma ceiling_small (q : Q) : (-1 < q)%Q -> (q <= 0)%Q -> Qceiling q = 0%Z.
Proof.
  intros H0 H1.
  assert (A : (Qceiling q <= 0)%Z).
  { change 0%Z with (Qceiling 0). apply Qceiling_resp_le. assumption. }
  assert (B : (-1 < Qceiling q)%Z).
  { rewrite Zlt_Qlt. eapply Qlt_le_trans; [exact H0 | apply Qle_ceiling]. }
  lia.
Qed.

(** A float strictly between -1 and 1 becomes the integer 0. *)
Lemma py_int_small (x : float) (q : Q) :
  float_value x = Some q -> (-1 < q)%Q -> (q < 1)%Q -> py_int x = Ok 0%Z.
Proof.
  intros Hv Hlo Hhi. destruct (Qlt_le_dec q 0) as [Hneg|Hpos].
  - rewrite (py_int_ceiling x q Hv) by (apply Qlt_le_weak; assumption).
    rewrite ceiling_small; auto using Qlt_le_weak.
  - rewrite (py_int_floor x q Hv) by assumption.
    rewrite floor_small; auto.
Qed.

(** ** Rules for computations *)

Lemma outcome_ret {A} (a : A) (P : A -> Prop) R : P a -> outcome (ret a) P R.
Proof. intros H s. exact H. Qed.

Lemma outcome_lift {A} (r : result A) (R : exn -> Prop) :
  (forall e, r = Raise e -> R e) ->
  outcome (lift r) (fun a => r = Ok a) R.
Proof. intros H s. simpl. destruct r; auto. Qed.

Lemma outcome_bind {A B} (c : M A) (k : A -> M B) P R Q :
  outcome c P R -> (forall a, P a -> outcome (k a) Q R) ->
  outcome (bind c k) Q R.
Proof.
  intros Hc Hk s. unfold bind. specialize (Hc s).
  destruct (c s) as [[a|e] s']; simpl in *.
  - apply (Hk a Hc).
  - exact Hc.
Qed.

Lemma outcome_weaken {A} (c : M A) (P P' : A -> Prop) (R R' : exn -> Prop) :
  outcome c P R -> (forall a, P a -> P' a) -> (forall e, R e -> R' e) ->
  outcome c P' R'.
Proof.
  intros Hc HP HR s. specialize (Hc s).
  destruct (fst (c s)); auto.
Qed.

Lemma outcome_forget {A} (c : M A) (P : A -> Prop) (R R' : exn -> Prop) :
  outcome c P R -> (forall e, R e -> R' e) -> outcome c (fun _ => True) R'.
Proof. intros Hc HR. eapply outcome_weaken; [exact Hc | auto | exact HR]. Qed.

Lemma preserves_ret {A} (a : A) : preserves (ret a).
Proof. intros s. reflexivity. Qed.

Lemma preserves_lift {A} (r : result A) : preserves (lift r).
Proof. intros s. reflexivity. Qed.

Lemma preserves_bind {A B} (c : M A) (k : A -> M B) :
  preserves c -> (forall a, preserves (k a)) -> preserves (bind c k).
Proof.
  intros Hc Hk s. unfold bind. specialize (Hc s).
  destruct (c s) as [[a|e] s']; simpl in *; subst.
  - apply Hk.
  - reflexivity.
Qed.

Lemma same_refl {A} (c : M A) : same c c.
Proof. intros s. reflexivity. Qed.

Lemma related_bind {A A' B} (Rel : A -> A' -> Prop) (c1 : M A) (c2 : M A')
    (k1 : A -> M B) (k2 : A' -> M B) :
  related Rel c1 c2 -> (forall a b, Rel a b -> same (k1 a) (k2 b)) ->
  same (bind c1 k1) (bind c2 k2).
Proof.
  intros Hc Hk s. unfold bind. specialize (Hc s).
  destruct (c1 s) as [[a|e1] s1], (c2 s) as [[b|e2] s2]; try contradiction.
  - destruct Hc as [Hab ->]. apply Hk. exact Hab.
  - destruct Hc as [-> ->]. reflexivity.
Qed.

Lemma related_refl {A} (c : M A) : related eq c c.
Proof. intros s. destruct (c s) as [[a|e] s']; split; reflexivity. Qed.

Lemma related_ret {A B} (Rel : A -> B -> Prop) (a : A) (b : B) :
  Rel a b -> related Rel (ret a) (ret b).
Proof. intros H s. split; [exact H | reflexivity]. Qed.

Lemma related_step {A A' B B'} (Rel : A -> A' -> Prop) (Rel' : B -> B' -> Prop)
    (c1 : M A) (c2 : M A') (k1 : A -> M B) (k2 : A' -> M B') :
  related Rel c1 c2 -> (forall a b, Rel a b -> related Rel' (k1 a) (k2 b)) ->
  related Rel' (bind c1 k1) (bind c2 k2).
Proof.
  intros Hc Hk s. unfold bind. specialize (Hc s).
  destruct (c1 s) as [[a|e1] s1], (c2 s) as [[b|e2] s2]; try contradiction.
  - destruct Hc as [Hab ->]. apply Hk. exact Hab.
  - destruct Hc as [-> ->]. split; reflexivity.
Qed.

Lemma same_bind {A B} (c1 c2 : M A) (k1 k2 : A -> M B) :
  same c1 c2 -> (forall a, same (k1 a) (k2 a)) ->
  same (bind c1 k1) (bind c2 k2).
Proof.
  intros Hc Hk s. unfold bind. rewrite (Hc s).
  destruct (c2 s) as [[a|e] s']; [apply Hk | reflexivity].
Qed.

(** ** The steps of the pricer *)

Section PricerFacts.

Variable ql : QuantLib.

Lemma outcome_new (o : obj) (R : exn -> Prop) :
  (forall e, rejects ql o = Some e -> R e) ->
  outcome (new ql o) (fun x => x = o) R.
Proof.
  intros H s. unfold new, lift. simpl.
  destruct (rejects ql o); auto.
Qed.

Lemma preserves_new (o : obj) : preserves (new ql o).
Proof. apply preserves_lift. Qed.

Lemma preserves_NPV (o : obj) : preserves (option_NPV ql o).
Proof. intros s. reflexivity. Qed.

Ltac preserves_step :=
  first [ apply preserves_ret | apply preserves_new | apply preserves_lift
        | apply preserves_NPV | solve [auto]
        | apply preserves_bind; [ | intros ] ].

Lemma preserves_days_after d t : preserves (days_after ql d t).
Proof. unfold days_after. repeat preserves_step. Qed.

Lemma preserves_dividend_dates d ts : preserves (dividend_dates ql d ts).
Proof.
  induction ts as [|t ts IH]; simpl.
  - apply preserves_ret.
  - apply preserves_bind; [apply preserves_days_after | intros].
    repeat preserves_step.
Qed.

Lemma preserves_append_dividends pairs sched :
  preserves (append_dividends ql pairs sched).
Proof.
  revert sched. induction pairs as [|[date div] rest IH]; intros sched; simpl.
  - apply preserves_ret.
  - apply preserves_bind; [apply preserves_new | intros; apply IH].
Qed.

Lemma from_fixed_date_start {A} (k : obj -> M A) :
  (forall d, preserves (k d)) ->
  from_fixed_date ql
    (d <- new ql calculation_date ;; set_evaluationDate d ;;; k d).
Proof.
  intros Hk. exists (fst (k calculation_date dated)). intros s0.
  unfold bind, new, lift, set_evaluationDate.
  destruct (rejects ql calculation_date); [reflexivity|].
  fold dated. rewrite (surjective_pairing (k calculation_date dated)).
  simpl. f_equal. apply Hk.
Qed.

Lemma from_fixed_date_bind {A B} (c : M A) (k : A -> M B) :
  from_fixed_date ql c -> (forall a, preserves (k a)) ->
  from_fixed_date ql (bind c k).
Proof.
  intros [r Hc] Hk.
  exists (match r with Ok a => fst (k a dated) | Raise e => Raise e end).
  intros s0. unfold bind. rewrite Hc.
  destruct (rejects ql calculation_date); [reflexivity|].
  destruct r as [a|e]; [|reflexivity].
  rewrite (surjective_pairing (k a dated)). f_equal. apply Hk.
Qed.

Lemma american_call_option_from_fixed_date spot strike rate div_yield maturity
    volatility dividends dividend_times :
  from_fixed_date ql
    (american_call_option ql spot strike rate div_yield maturity volatility
       dividends dividend_times).
Proof.
  unfold american_call_option. apply from_fixed_date_start. intros d.
  repeat first [ apply preserves_days_after | apply preserves_dividend_dates
               | apply preserves_append_dividends | preserves_step ].
Qed.

Lemma price_from_fixed_date spot strike rate div_yield maturity volatility
    dividends dividend_times :
  from_fixed_date ql
    (price_american_call_pde ql spot strike rate div_yield maturity volatility
       dividends dividend_times).
Proof.
  unfold price_american_call_pde. apply from_fixed_date_bind.
  - apply american_call_option_from_fixed_date.
  - intros o. apply preserves_NPV.
Qed.

(** *** Where an exception comes from *)

Lemma days_after_origin d t :
  outcome (days_after ql d t) (fun _ => True)
    (fun e => library_raises ql e \/ py_int (times_365 t) = Raise e).
Proof.
  unfold days_after.
  eapply outcome_bind; [apply outcome_lift; intros; right; assumption|].
  intros n _.
  eapply outcome_bind;
    [apply outcome_new; intros e He; left; left; eauto|].
  intros p _.
  eapply outcome_forget.
  - apply (outcome_new (DatePlus d p) (library_raises ql)).
    intros e He. left. eauto.
  - auto.
Qed.

Lemma dividend_dates_origin d ts :
  outcome (dividend_dates ql d ts) (fun _ => True)
    (fun e => library_raises ql e \/ int_raises ts e).
Proof.
  induction ts as [|t ts IH]; simpl.
  - apply outcome_ret. exact I.
  - eapply outcome_bind.
    + eapply outcome_forget; [apply days_after_origin|].
      intros e [H|H]; [left; exact H|].
      right. exists t. split; [left; reflexivity | exact H].
    + intros date _. eapply outcome_bind.
      * eapply outcome_forget; [exact IH|].
        intros e [H|[t' [Hin H]]]; [left; exact H|].
        right. exists t'. split; [right; exact Hin | exact H].
      * intros dates _. apply outcome_ret. exact I.
Qed.

Lemma append_dividends_origin pairs sched (R : exn -> Prop) :
  (forall e, library_raises ql e -> R e) ->
  outcome (append_dividends ql pairs sched) (fun _ => True) R.
Proof.
  intros HR. revert sched.
  induction pairs as [|[date div] rest IH]; intros sched; simpl.
  - apply outcome_ret. exact I.
  - eapply outcome_bind.
    + apply outcome_new. intros e He. apply HR. left. eauto.
    + intros x _. apply IH.
Qed.

Lemma outcome_set_evaluationDate d (R : exn -> Prop) :
  outcome (set_evaluationDate d) (fun _ => True) R.
Proof. intros s. exact I. Qed.

(** *** The option handed to the engine *)

Lemma american_call_option_shape spot strike rate div_yield maturity
    volatility dividends dividend_times :
  outcome
    (american_call_option ql spot strike rate div_yield maturity volatility
       dividends dividend_times)
    (fun o => exists payoff exercise process schedule,
         o = VanillaOption payoff exercise
               (Some (FDAmericanEngine process 100 100 schedule)))
    (fun _ => True).
Proof.
  unfold american_call_option.
  repeat first
    [ eapply outcome_bind; [ apply outcome_new; auto | intros ? -> ]
    | eapply outcome_bind;
      [ first
          [ apply outcome_set_evaluationDate
          | eapply outcome_forget; [apply days_after_origin | auto]
          | eapply outcome_forget; [apply dividend_dates_origin | auto]
          | apply append_dividends_origin; auto ]
      | intros ? _ ] ].
  apply outcome_ret. simpl. eauto.
Qed.

End PricerFacts.

(** ** The pricer: the process-wide evaluation date *)

(** C3, as the code has it: what the pricer returns or raises does not
    depend on the settings it starts from, but every call that gets past the
    construction of the calculation date leaves the process-wide evaluation
    date at 1 January 2024. *)
Theorem price_overwrites_evaluation_date (ql : QuantLib)
    (spot strike rate div_yield maturity volatility : float)
    (dividends dividend_times : list float) (s1 s2 : Settings) :
  fst (price_american_call_pde ql spot strike rate div_yield maturity
         volatility dividends dividend_times s1)
  = fst (price_american_call_pde ql spot strike rate div_yield maturity
           volatility dividends dividend_times s2)
  /\ snd (price_american_call_pde ql spot strike rate div_yield maturity
            volatility dividends dividend_times s1)
     = match rejects ql calculation_date with
       | Some _ => s1
       | None => dated
       end.
Proof.
  destruct (price_from_fixed_date ql spot strike rate div_yield maturity
              volatility dividends dividend_times) as [r Hr].
  rewrite (Hr s1), (Hr s2).
  destruct (rejects ql calculation_date); split; reflexivity.
Qed.

(** C3, as stated, fails: a call changes the settings. *)
Lemma price_changes_the_settings :
  snd (price_american_call_pde sample_ql 100 100 0.0625 0.03125 1 0.25
         [2; 1.5]%float [0.25; 0.75]%float unset) <> unset.
Proof. vm_compute. discriminate. Qed.

(** ** Day counts *)

Section DayCounts.

Variable ql : QuantLib.

Lemma days_after_same d t1 t2 :
  py_int (times_365 t1) = py_int (times_365 t2) ->
  same (days_after ql d t1) (days_after ql d t2).
Proof. intros H s. unfold days_after. rewrite H. reflexivity. Qed.

Lemma dividend_dates_same d ts1 ts2 :
  map (fun t => py_int (times_365 t)) ts1
  = map (fun t => py_int (times_365 t)) ts2 ->
  same (dividend_dates ql d ts1) (dividend_dates ql d ts2).
Proof.
  revert ts2. induction ts1 as [|t1 ts1 IH]; intros [|t2 ts2] H;
    try discriminate.
  - apply same_refl.
  - simpl in H. injection H as Ht Hts. simpl.
    apply same_bind; [apply days_after_same; exact Ht | intros date].
    apply same_bind; [apply IH; exact Hts | intros dates].
    apply same_refl.
Qed.

Lemma price_same_day_counts spot strike rate div_yield volatility dividends
    m1 m2 ts1 ts2 :
  py_int (times_365 m1) = py_int (times_365 m2) ->
  map (fun t => py_int (times_365 t)) ts1
  = map (fun t => py_int (times_365 t)) ts2 ->
  same
    (price_american_call_pde ql spot strike rate div_yield m1 volatility
       dividends ts1)
    (price_american_call_pde ql spot strike rate div_yield m2 volatility
       dividends ts2).
Proof.
  intros Hm Hts.
  unfold price_american_call_pde, american_call_option.
  apply same_bind; [|intros; apply same_refl].
  repeat first
    [ apply same_refl
    | apply same_bind;
      [ first [ apply days_after_same; exact Hm
              | apply dividend_dates_same; exact Hts
              | apply same_refl ]
      | intros ? ] ].
Qed.

(** *** Lists of different lengths *)

Lemma dividend_dates_length d ts :
  related (fun l1 l2 => l1 = l2 /\ length l1 = length ts)
    (dividend_dates ql d ts) (dividend_dates ql d ts).
Proof.
  intros s.
  assert (H : match dividend_dates ql d ts s with
              | (Ok l, _) => length l = length ts
              | _ => True
              end).
  { revert s. induction ts as [|t ts IH]; intros s; simpl.
    - reflexivity.
    - unfold bind at 1. destruct (days_after ql d t s) as [[date|e] s1];
        [|exact I].
      unfold bind. specialize (IH s1).
      destruct (dividend_dates ql d ts s1) as [[dates|e] s2]; [|exact I].
      simpl. rewrite IH. reflexivity. }
  destruct (dividend_dates ql d ts s) as [[l|e] s']; auto.
Qed.

Lemma days_after_converts d t s :
  converts ql d t -> exists date, days_after ql d t s = (Ok date, s).
Proof.
  intros [n [Hn [Hp Hd]]]. exists (DatePlus d (Period n Days)).
  unfold days_after, bind, new, lift. rewrite Hn, Hp, Hd. reflexivity.
Qed.

Lemma dividend_dates_convert d ts s :
  Forall (converts ql d) ts ->
  exists l, dividend_dates ql d ts s = (Ok l, s) /\ length l = length ts.
Proof.
  induction 1 as [|t ts Ht Hts IH]; simpl.
  - exists []. split; reflexivity.
  - destruct (days_after_converts d t s Ht) as [date Hdate].
    destruct IH as [l [Hl Hlen]].
    exists (date :: l). unfold bind. rewrite Hdate, Hl.
    split; [reflexivity | simpl; rewrite Hlen; reflexivity].
Qed.

Lemma dividend_dates_firstn d ts n :
  Forall (converts ql d) (skipn n ts) ->
  related (fun l1 l2 => l2 = firstn n l1)
    (dividend_dates ql d ts) (dividend_dates ql d (firstn n ts)).
Proof.
  revert n. induction ts as [|t ts IH]; intros n Hc.
  - rewrite firstn_nil. simpl. apply related_ret. rewrite firstn_nil.
    reflexivity.
  - destruct n as [|n].
    + intros s. simpl in Hc.
      destruct (dividend_dates_convert d (t :: ts) s Hc) as [l [Hl _]].
      rewrite Hl. simpl. split; reflexivity.
    + simpl in Hc. simpl.
      eapply related_step; [apply related_refl | intros date ? <-].
      eapply related_step; [apply (IH n Hc) | intros l1 l2 ->].
      apply related_ret. reflexivity.
Qed.

(** The steps of the pricer before the dividend dates are made. *)
Ltac upto_dividend_dates :=
  repeat lazymatch goal with
    | |- same (bind (dividend_dates _ _ _) _) _ => fail
    | |- same (bind _ _) (bind _ _) =>
        apply same_bind; [apply same_refl | intros ?]
    end.

Lemma price_longer_dividends spot strike rate div_yield maturity volatility
    dividends dividend_times :
  same
    (price_american_call_pde ql spot strike rate div_yield maturity
       volatility dividends dividend_times)
    (price_american_call_pde ql spot strike rate div_yield maturity
       volatility (firstn (length dividend_times) dividends) dividend_times).
Proof.
  unfold price_american_call_pde, american_call_option.
  apply same_bind; [|intros; apply same_refl].
  upto_dividend_dates.
  eapply related_bind; [apply dividend_dates_length|].
  intros l1 l2 [<- Hlen].
  rewrite (combine_firstn_l l1 dividends), Hlen. apply same_refl.
Qed.

Lemma new_related (o : obj) :
  related (fun a b => a = b /\ a = o) (new ql o) (new ql o).
Proof.
  intros s. unfold new, lift. destruct (rejects ql o); repeat split.
Qed.

Lemma price_longer_times spot strike rate div_yield maturity volatility
    dividends dividend_times :
  Forall (converts ql calculation_date)
    (skipn (length dividends) dividend_times) ->
  same
    (price_american_call_pde ql spot strike rate div_yield maturity
       volatility dividends dividend_times)
    (price_american_call_pde ql spot strike rate div_yield maturity
       volatility dividends (firstn (length dividends) dividend_times)).
Proof.
  intros Hc.
  unfold price_american_call_pde, american_call_option.
  apply same_bind; [|intros; apply same_refl].
  eapply related_bind; [apply new_related | intros d ? [<- ->]].
  upto_dividend_dates.
  eapply related_bind; [apply dividend_dates_firstn; exact Hc|].
  intros l1 l2 ->.
  rewrite <- (combine_firstn_r l1 dividends). apply same_refl.
Qed.

End DayCounts.

(** C9, as the code has it: maturity and dividend times enter the price
    only through [int(t * 365)], which rounds the float product toward
    zero: down when it is not negative, up when it is not positive.  Inputs
    with the same day counts have the same price, and a maturity whose
    product with 365 lies strictly between -1 and 1 is priced like a
    maturity of zero. *)
Theorem day_counts_round_toward_zero (ql : QuantLib)
    (spot strike rate div_yield volatility : float)
    (dividends : list float) (m1 m2 : float) (ts1 ts2 : list float)
    (s : Settings) :
  (py_int (times_365 m1) = py_int (times_365 m2) ->
   map (fun t => py_int (times_365 t)) ts1
   = map (fun t => py_int (times_365 t)) ts2 ->
   price_american_call_pde ql spot strike rate div_yield m1 volatility
     dividends ts1 s
   = price_american_call_pde ql spot strike rate div_yield m2 volatility
       dividends ts2 s)
  /\ (forall q, float_value (times_365 m1) = Some q ->
        ((0 <= q)%Q -> py_int (times_365 m1) = Ok (Qfloor q))
        /\ ((q <= 0)%Q -> py_int (times_365 m1) = Ok (Qceiling q))
        /\ ((-1 < q)%Q -> (q < 1)%Q ->
            price_american_call_pde ql spot strike rate div_yield m1
              volatility dividends ts1 s
            = price_american_call_pde ql spot strike rate div_yield 0
                volatility dividends ts1 s)).
Proof.
  split.
  - intros Hm Hts. apply price_same_day_counts; assumption.
  - intros q Hq. split; [|split].
    + apply py_int_floor. exact Hq.
    + apply py_int_ceiling. exact Hq.
    + intros Hlo Hhi. apply price_same_day_counts; [|reflexivity].
      rewrite (py_int_small _ q Hq Hlo Hhi). reflexivity.
Qed.

(** Two maturities of 365 days, and a maturity of less than a day. *)
Lemma day_counts_round_toward_zero_witness :
  price_american_call_pde sample_ql 100 100 0.0625 0.03125 1 0.25
    [2; 1.5]%float [0.25; 0.75]%float unset
  = price_american_call_pde sample_ql 100 100 0.0625 0.03125 1.001953125 0.25
      [2; 1.5]%float [0.251953125; 0.75]%float unset
  /\ price_american_call_pde sample_ql 100 100 0.0625 0.03125 0.001953125
       0.25 [2; 1.5]%float [0.25; 0.75]%float unset
     = price_american_call_pde sample_ql 100 100 0.0625 0.03125 0 0.25
         [2; 1.5]%float [0.25; 0.75]%float unset.
Proof.
  split.
  - apply (proj1 (day_counts_round_toward_zero sample_ql 100 100 0.0625
                    0.03125 0.25 [2; 1.5]%float 1 1.001953125
                    [0.25; 0.75]%float [0.251953125; 0.75]%float unset));
      vm_compute; reflexivity.
  - refine (proj2 (proj2 (proj2 (day_counts_round_toward_zero sample_ql 100
                     100 0.0625 0.03125 0.25 [2; 1.5]%float 0.001953125 0
                     [0.25; 0.75]%float [0.25; 0.75]%float unset)
                   (inject_Z 6421147906211840 * Qpower 2 (-53))%Q _)) _ _);
      vm_compute; reflexivity.
Defined.

(** C9, as stated, fails below zero.  The products [-0.001953125 * 365] and
    [(-1 / 365) * 365] have the same floor, -1, but the first maturity gives
    a window of no days and the second a window of minus one day, which the
    strict library refuses.  And a maturity of -1, which is below 1/365,
    gives a window of -365 days. *)
Lemma negative_maturities_are_not_floored :
  (exists q1 q2,
      float_value (times_365 (-0.001953125)) = Some q1
      /\ float_value (times_365 (-1 / 365)) = Some q2
      /\ Qfloor q1 = Qfloor q2)
  /\ fst (price_american_call_pde strict_ql 100 100 0.0625 0.03125
            (-0.001953125) 0.25 [2; 1.5]%float [0.25; 0.75]%float unset)
     <> fst (price_american_call_pde strict_ql 100 100 0.0625 0.03125
               (-1 / 365) 0.25 [2; 1.5]%float [0.25; 0.75]%float unset)
  /\ (exists q o,
         float_value (-1) = Some q /\ (q < 1 # 365)%Q
         /\ fst (american_call_option sample_ql 100 100 0.0625 0.03125 (-1)
                   0.25 [2; 1.5]%float [0.25; 0.75]%float unset) = Ok o
         /\ exercise_days o = Some (-365)%Z).
Proof.
  split; [|split].
  - do 2 eexists. split; [vm_compute; reflexivity|].
    split; [vm_compute; reflexivity|]. vm_compute. reflexivity.
  - vm_compute. discriminate.
  - do 2 eexists. split; [vm_compute; reflexivity|].
    split; [vm_compute; reflexivity|].
    split; [vm_compute; reflexivity|]. reflexivity.
Qed.

(** ** Lists of different lengths *)

(** C10, as the code has it: the dividends beyond the number of dividend
    times are never read; the dividend times beyond the number of dividends
    are still made into dates by line 54, and when each of them becomes a
    date without an exception, the price is the one of the lists cut to the
    shorter length. *)
Theorem length_mismatch_truncates (ql : QuantLib)
    (spot strike rate div_yield maturity volatility : float)
    (dividends dividend_times : list float) (s : Settings) :
  price_american_call_pde ql spot strike rate div_yield maturity volatility
    dividends dividend_times s
  = price_american_call_pde ql spot strike rate div_yield maturity volatility
      (firstn (length dividend_times) dividends) dividend_times s
  /\ (Forall (converts ql calculation_date)
        (skipn (length dividends) dividend_times) ->
      price_american_call_pde ql spot strike rate div_yield maturity
        volatility dividends dividend_times s
      = price_american_call_pde ql spot strike rate div_yield maturity
          volatility dividends (firstn (length dividends) dividend_times) s).
Proof.
  split.
  - apply price_longer_dividends.
  - intros Hc. apply price_longer_times. exact Hc.
Qed.

(** One dividend and two dividend times. *)
Lemma length_mismatch_truncates_witness :
  Forall (converts sample_ql calculation_date) [0.75%float]
  /\ price_american_call_pde sample_ql 100 100 0.0625 0.03125 1 0.25
       [2%float] [0.25; 0.75]%float unset
     = price_american_call_pde sample_ql 100 100 0.0625 0.03125 1 0.25
         [2%float] [0.25%float] unset.
Proof.
  assert (Hc : Forall (converts sample_ql calculation_date) [0.75%float]).
  { constructor; [|constructor]. exists 273%Z. repeat split. }
  split; [exact Hc|].
  exact (proj2 (length_mismatch_truncates sample_ql 100 100 0.0625 0.03125 1
                  0.25 [2%float] [0.25; 0.75]%float unset) Hc).
Defined.

(** C10, as stated, fails: a dividend time beyond the number of dividends
    is not ignored; when it is not a number the pricer raises, although
    without it a price is returned. *)
Lemma surplus_dividend_time_is_converted :
  fst (price_american_call_pde sample_ql 100 100 0.0625 0.03125 1 0.25
         [2%float] [0.25; nan]%float unset) = Raise ValueError
  /\ fst (price_american_call_pde sample_ql 100 100 0.0625 0.03125 1 0.25
            [2%float] [0.25%float] unset) = Ok 6.25%float.
Proof. split; vm_compute; reflexivity. Qed.

(** ** Control parameters *)

Lemma american_call_option_resolution (ql : QuantLib)
    (spot strike rate div_yield maturity volatility : float)
    (dividends dividend_times : list float) (s s' : Settings) (o : obj) :
  american_call_option ql spot strike rate div_yield maturity volatility
    dividends dividend_times s = (Ok o, s') ->
  engine_resolution o = Some (100, 100)%Z.
Proof.
  intros H.
  pose proof (american_call_option_shape ql spot strike rate div_yield
                maturity volatility dividends dividend_times s) as Hs.
  rewrite H in Hs. simpl in Hs.
  destruct Hs as [payoff [exercise [process [schedule ->]]]]. reflexivity.
Qed.

(** C5, as the code has it: neither function has a control parameter.
    Whatever the arguments, the engine of the option that the pricer hands
    to [NPV()] has 100 time steps and 100 grid points; and the solver calls
    [newton] with the objective and the guess only, so that two [newton]s
    that agree when [tol] and [maxiter] are left out give the same
    result. *)
Theorem control_parameters_are_fixed (ql : QuantLib) (scipy1 scipy2 : SciPy)
    (target_price spot strike rate div_yield maturity volatility : float)
    (dividends dividend_times : list float) (guess : float) (s : Settings) :
  (forall o s',
      american_call_option ql spot strike rate div_yield maturity volatility
        dividends dividend_times s = (Ok o, s') ->
      engine_resolution o = Some (100, 100)%Z)
  /\ ((forall x0, newton scipy1 x0 None None = newton scipy2 x0 None None) ->
      implied_volatility_american_call_pde ql scipy1 target_price spot strike
        rate div_yield maturity dividends dividend_times guess s
      = implied_volatility_american_call_pde ql scipy2 target_price spot
          strike rate div_yield maturity dividends dividend_times guess s).
Proof.
  split.
  - intros o s' H.
    exact (american_call_option_resolution ql spot strike rate div_yield
             maturity volatility dividends dividend_times s s' o H).
  - intros H. unfold implied_volatility_american_call_pde.
    rewrite (H guess). reflexivity.
Qed.

(** The option of the example at the end of the module, and a [newton]
    that ignores [tol] and [maxiter] next to one that honours them. *)
Lemma control_parameters_are_fixed_witness :
  (exists o,
      american_call_option sample_ql 100 100 0.0625 0.03125 1 0.25
        [2; 1.5]%float [0.25; 0.75]%float unset = (Ok o, dated)
      /\ engine_resolution o = Some (100, 100)%Z)
  /\ implied_volatility_american_call_pde sample_ql sample_scipy 6.5 100 100
       0.0625 0.03125 1 [2; 1.5]%float [0.25; 0.75]%float 0.25 unset
     = implied_volatility_american_call_pde sample_ql plain_scipy 6.5 100 100
         0.0625 0.03125 1 [2; 1.5]%float [0.25; 0.75]%float 0.25 unset.
Proof.
  pose proof (control_parameters_are_fixed sample_ql sample_scipy plain_scipy
                6.5 100 100 0.0625 0.03125 1 0.25 [2; 1.5]%float
                [0.25; 0.75]%float 0.25 unset) as [H1 H2].
  split.
  - eexists. split; [vm_compute; reflexivity|].
    eapply H1. vm_compute. reflexivity.
  - apply H2. intros x0. reflexivity.
Defined.

(** C5, as stated, fails: no call of the pricer prices on a grid of 200
    time steps and 50 grid points. *)
Lemma resolution_is_not_an_argument :
  ~ (forall time_steps price_steps : Z,
        exists (ql : QuantLib)
               (spot strike rate div_yield maturity volatility : float)
               (dividends dividend_times : list float) (s s' : Settings)
               (o : obj),
          american_call_option ql spot strike rate div_yield maturity
            volatility dividends dividend_times s = (Ok o, s')
          /\ engine_resolution o = Some (time_steps, price_steps)).
Proof.
  intros H.
  destruct (H 200%Z 50%Z)
    as (ql & spot & strike & rate & div_yield & maturity & volatility
        & dividends & dividend_times & s & s' & o & Ho & Hr).
  rewrite (american_call_option_resolution ql spot strike rate div_yield
             maturity volatility dividends dividend_times s s' o Ho) in Hr.
  discriminate.
Qed.

(** ** The solver *)

(** C4: when [newton] starts by evaluating the objective at the guess, and
    the pricer raises [RuntimeError] there, the solver returns [None], as
    if the search had not converged. *)
Theorem runtime_error_of_the_pricer_becomes_none (ql : QuantLib)
    (scipy : SciPy)
    (target_price spot strike rate div_yield maturity : float)
    (dividends dividend_times : list float) (guess : float) (s : Settings)
    (k : float -> strategy) :
  newton scipy guess None None = Evaluate guess k ->
  fst (price_american_call_pde ql spot strike rate div_yield maturity guess
         dividends dividend_times s) = Raise RuntimeError ->
  fst (implied_volatility_american_call_pde ql scipy target_price spot strike
         rate div_yield maturity dividends dividend_times guess s) = Ok None.
Proof.
  intros Hn Hp.
  unfold implied_volatility_american_call_pde, try_except, bind.
  rewrite Hn. simpl run. unfold bind, objective_function, bind.
  destruct (price_american_call_pde ql spot strike rate div_yield maturity
              guess dividends dividend_times s) as [[v|e] s1];
    simpl in Hp; [discriminate|].
  injection Hp as ->. reflexivity.
Qed.

(** A maturity of -1 with the library that refuses the exercise. *)
Lemma runtime_error_of_the_pricer_becomes_none_witness :
  fst (price_american_call_pde strict_ql 100 100 0.0625 0.03125 (-1) 0.25
         [2; 1.5]%float [0.25; 0.75]%float unset) = Raise RuntimeError
  /\ fst (implied_volatility_american_call_pde strict_ql sample_scipy 6.25
            100 100 0.0625 0.03125 (-1) [2; 1.5]%float [0.25; 0.75]%float
            0.25 unset) = Ok None.
Proof.
  assert (Hp : fst (price_american_call_pde strict_ql 100 100 0.0625 0.03125
                      (-1) 0.25 [2; 1.5]%float [0.25; 0.75]%float unset)
               = Raise RuntimeError) by (vm_compute; reflexivity).
  split; [exact Hp|].
  exact (runtime_error_of_the_pricer_becomes_none strict_ql sample_scipy 6.25
           100 100 0.0625 0.03125 (-1) [2; 1.5]%float [0.25; 0.75]%float 0.25
           unset _ eq_refl Hp).
Defined.

(** * Further properties *)

(** ** What the pricer builds *)

Section Built.

Variable ql : QuantLib.

Lemma days_after_built d t :
  outcome (days_after ql d t)
    (fun x => exists n, py_int (times_365 t) = Ok n /\ x = date_after d n)
    (fun _ => True).
Proof.
  unfold days_after.
  eapply outcome_bind; [apply outcome_lift; auto | intros n Hn].
  eapply outcome_bind; [apply outcome_new; auto | intros ? ->].
  apply outcome_weaken
    with (P := fun x => x = DatePlus d (Period n Days)) (R := fun _ => True).
  - apply outcome_new. auto.
  - intros x ->. exists n. split; [exact Hn | reflexivity].
  - auto.
Qed.

Lemma dividend_dates_built d ts :
  outcome (dividend_dates ql d ts)
    (fun l => exists ns,
         map (fun t => py_int (times_365 t)) ts = map Ok ns
         /\ l = map (date_after d) ns)
    (fun _ => True).
Proof.
  induction ts as [|t ts IH]; simpl.
  - apply outcome_ret. exists []. split; reflexivity.
  - eapply outcome_bind; [apply days_after_built | intros x [n [Hn ->]]].
    eapply outcome_bind; [exact IH | intros l [ns [Hns ->]]].
    apply outcome_ret. exists (n :: ns). simpl. rewrite Hn, Hns.
    split; reflexivity.
Qed.

Lemma append_dividends_built pairs l0 :
  outcome (append_dividends ql pairs (DividendSchedule l0))
    (fun x => x = DividendSchedule
                    (l0 ++ map (fun p => FixedDividend (snd p) (fst p)) pairs))
    (fun _ => True).
Proof.
  revert l0. induction pairs as [|[date div] rest IH]; intros l0; simpl.
  - apply outcome_ret. rewrite app_nil_r. reflexivity.
  - eapply outcome_bind; [apply outcome_new; auto | intros ? ->].
    simpl. eapply outcome_weaken; [apply IH | | auto].
    intros x Hx. rewrite Hx, <- app_assoc. reflexivity.
Qed.

Lemma fixed_dividends_of_dates d ns (dividends : list float) :
  map (fun p => FixedDividend (snd p) (fst p))
    (combine (map (date_after d) ns) dividends)
  = scheduled_dividends d ns dividends.
Proof.
  unfold scheduled_dividends. revert dividends.
  induction ns as [|n ns IH]; intros [|div dividends]; simpl;
    try reflexivity.
  rewrite IH. reflexivity.
Qed.

Lemma american_call_option_built spot strike rate div_yield maturity
    volatility dividends dividend_times :
  outcome
    (american_call_option ql spot strike rate div_yield maturity volatility
       dividends dividend_times)
    (fun o => exists n ns,
         py_int (times_365 maturity) = Ok n
         /\ map (fun t => py_int (times_365 t)) dividend_times = map Ok ns
         /\ o = VanillaOption (PlainVanillaPayoff Call strike)
                  (AmericanExercise calculation_date
                     (date_after calculation_date n))
                  (Some
                     (FDAmericanEngine
                        (BlackScholesMertonProcess
                           (QuoteHandle (SimpleQuote spot))
                           (YieldTermStructureHandle
                              (FlatForward calculation_date div_yield
                                 Actual365Fixed))
                           (YieldTermStructureHandle
                              (FlatForward calculation_date rate
                                 Actual365Fixed))
                           (BlackVolTermStructureHandle
                              (BlackConstantVol calculation_date NullCalendar
                                 volatility Actual365Fixed)))
                        100 100
                        (DividendSchedule
                           (scheduled_dividends calculation_date ns
                              dividends)))))
    (fun _ => True).
Proof.
  unfold american_call_option.
  eapply outcome_bind; [apply outcome_new; auto | intros ? ->].
  eapply outcome_bind; [apply outcome_set_evaluationDate | intros ? _].
  do 11 (eapply outcome_bind; [apply outcome_new; auto | intros ? ->]).
  eapply outcome_bind; [apply days_after_built | intros ? [n [Hn ->]]].
  do 3 (eapply outcome_bind; [apply outcome_new; auto | intros ? ->]).
  eapply outcome_bind; [apply dividend_dates_built | intros ? [ns [Hns ->]]].
  eapply outcome_bind; [apply outcome_new; auto | intros ? ->].
  eapply outcome_bind; [apply append_dividends_built | intros ? ->].
  eapply outcome_bind; [apply outcome_new; auto | intros ? ->].
  apply outcome_ret. exists n, ns. split; [exact Hn|]. split; [exact Hns|].
  simpl. rewrite fixed_dividends_of_dates. reflexivity.
Qed.

End Built.

(** X1: an option that the pricer has built carries the arguments in their
    places: the strike in a call payoff, an exercise from the calculation
    date to [int(maturity * 365)] days later, and a process made of the
    spot, the dividend yield, the rate and the volatility, in this order,
    all dated and counted from the calculation date. *)
Theorem option_carries_the_arguments (ql : QuantLib)
    (spot strike rate div_yield maturity volatility : float)
    (dividends dividend_times : list float) (s s' : Settings) (o : obj) :
  american_call_option ql spot strike rate div_yield maturity volatility
    dividends dividend_times s = (Ok o, s') ->
  exists n,
    py_int (times_365 maturity) = Ok n
    /\ contract_of o
       = Some (PlainVanillaPayoff Call strike,
               AmericanExercise calculation_date
                 (date_after calculation_date n),
               BlackScholesMertonProcess
                 (QuoteHandle (SimpleQuote spot))
                 (YieldTermStructureHandle
                    (FlatForward calculation_date div_yield Actual365Fixed))
                 (YieldTermStructureHandle
                    (FlatForward calculation_date rate Actual365Fixed))
                 (BlackVolTermStructureHandle
                    (BlackConstantVol calculation_date NullCalendar
                       volatility Actual365Fixed))).
Proof.
  intros H.
  pose proof (american_call_option_built ql spot strike rate div_yield
                maturity volatility dividends dividend_times s) as Hb.
  rewrite H in Hb. simpl in Hb. destruct Hb as [n [ns [Hn [_ ->]]]].
  exists n. split; [exact Hn | reflexivity].
Qed.

(** The option of the example at the end of the module. *)
Lemma option_carries_the_arguments_witness :
  exists o n,
    american_call_option sample_ql 100 100 0.0625 0.03125 1 0.25
      [2; 1.5]%float [0.25; 0.75]%float unset = (Ok o, dated)
    /\ py_int (times_365 1) = Ok n
    /\ exercise_days o = Some n.
Proof.
  destruct (option_carries_the_arguments sample_ql 100 100 0.0625 0.03125 1
              0.25 [2; 1.5]%float [0.25; 0.75]%float unset dated _ eq_refl)
    as [n [Hn Hc]].
  eexists. exists n. split; [reflexivity|]. split; [exact Hn|].
  vm_compute in Hn. injection Hn as <-. reflexivity.
Defined.

(** X2: the dividend schedule of an option that the pricer has built holds,
    in the order of the arguments, the i-th dividend at the date of the
    i-th dividend time, for as many entries as the shorter of the two lists
    has; nothing is sorted, merged or left out. *)
Theorem schedule_pairs_dividends_with_dates (ql : QuantLib)
    (spot strike rate div_yield maturity volatility : float)
    (dividends dividend_times : list float) (s s' : Settings) (o : obj) :
  american_call_option ql spot strike rate div_yield maturity volatility
    dividends dividend_times s = (Ok o, s') ->
  exists ns,
    map (fun t => py_int (times_365 t)) dividend_times = map Ok ns
    /\ schedule_of o
       = Some (scheduled_dividends calculation_date ns dividends)
    /\ length (scheduled_dividends calculation_date ns dividends)
       = Nat.min (length dividend_times) (length dividends).
Proof.
  intros H.
  pose proof (american_call_option_built ql spot strike rate div_yield
                maturity volatility dividends dividend_times s) as Hb.
  rewrite H in Hb. simpl in Hb. destruct Hb as [n [ns [_ [Hns ->]]]].
  exists ns. split; [exact Hns|]. split; [reflexivity|].
  unfold scheduled_dividends. rewrite length_map, length_combine.
  apply (f_equal (@length _)) in Hns. rewrite !length_map in Hns.
  rewrite Hns. reflexivity.
Qed.

(** Three dividend times, the second before the first, and two dividends. *)
Lemma schedule_pairs_dividends_with_dates_witness :
  exists o,
    american_call_option sample_ql 100 100 0.0625 0.03125 1 0.25
      [2; 1.5]%float [0.75; 0.25; 0.5]%float unset = (Ok o, dated)
    /\ schedule_of o
       = Some [FixedDividend 2 (date_after calculation_date 273);
               FixedDividend 1.5 (date_after calculation_date 91)].
Proof.
  destruct (schedule_pairs_dividends_with_dates sample_ql 100 100 0.0625
              0.03125 1 0.25 [2; 1.5]%float [0.75; 0.25; 0.5]%float unset
              dated _ eq_refl) as [ns [Hns [Hs _]]].
  eexists. split; [reflexivity|].
  rewrite Hs. vm_compute in Hns.
  destruct ns as [|n1 [|n2 [|n3 [|? ?]]]]; try discriminate.
  injection Hns as <- <- <-. reflexivity.
Defined.

(** ** Calling the pricer again *)

(** X3: a second call of the pricer with the same arguments, made from the
    settings the first call has left, ends as the first did and changes the
    settings no further. *)
Theorem price_again_is_the_same (ql : QuantLib)
    (spot strike rate div_yield maturity volatility : float)
    (dividends dividend_times : list float) (s : Settings) :
  price_american_call_pde ql spot strike rate div_yield maturity volatility
    dividends dividend_times
    (snd (price_american_call_pde ql spot strike rate div_yield maturity
            volatility dividends dividend_times s))
  = price_american_call_pde ql spot strike rate div_yield maturity volatility
      dividends dividend_times s.
Proof.
  destruct (price_from_fixed_date ql spot strike rate div_yield maturity
              volatility dividends dividend_times) as [r Hr].
  rewrite (Hr s).
  destruct (rejects ql calculation_date); cbn [snd]; rewrite Hr;
    reflexivity.
Qed.

(** ** The exceptions of the pricer itself *)


(** ** The solver and the settings *)

Section SolverFacts.

Variable ql : QuantLib.

Lemma objective_from_fixed_date target_price spot strike rate div_yield
    maturity dividends dividend_times vol :
  from_fixed_date ql
    (objective_function ql target_price spot strike rate div_yield maturity
       dividends dividend_times vol).
Proof.
  unfold objective_function. apply from_fixed_date_bind.
  - apply price_from_fixed_date.
  - intros price. apply preserves_ret.
Qed.

Lemma run_keeps_date (f : float -> M float) (st : strategy) :
  rejects ql calculation_date = None ->
  (forall x, from_fixed_date ql (f x)) ->
  snd (run st f dated) = dated.
Proof.
  intros Hacc Hf. induction st as [v|e|x k IH]; simpl; try reflexivity.
  unfold bind. destruct (Hf x) as [r Hr]. rewrite Hr, Hacc.
  destruct r as [y|e]; [apply IH | reflexivity].
Qed.

Lemma run_from_fixed_date (f : float -> M float) x k :
  (forall x, from_fixed_date ql (f x)) ->
  from_fixed_date ql (run (Evaluate x k) f).
Proof.
  intros Hf. simpl. destruct (Hf x) as [r Hr].
  exists (match r with
          | Ok y => fst (run (k y) f dated)
          | Raise e => Raise e
          end).
  intros s0. unfold bind. rewrite Hr.
  destruct (rejects ql calculation_date) eqn:E; [reflexivity|].
  destruct r as [y|e]; [|reflexivity].
  rewrite (surjective_pairing (run (k y) f dated)). f_equal.
  apply run_keeps_date; assumption.
Qed.

Lemma run_same (f g : float -> M float) (st : strategy) :
  (forall x, same (f x) (g x)) -> same (run st f) (run st g).
Proof.
  intros Hfg. induction st as [v|e|x k IH]; simpl; try apply same_refl.
  apply same_bind; [apply Hfg | exact IH].
Qed.

Lemma try_except_same {A} (c1 c2 : M A) (E : exn) (h : M A) :
  same c1 c2 -> same (try_except c1 E h) (try_except c2 E h).
Proof. intros H s. unfold try_except. rewrite (H s). reflexivity. Qed.

End SolverFacts.

(** X5: what the solver returns or raises does not depend on the settings
    it starts from. *)
Theorem solver_result_ignores_the_settings (ql : QuantLib) (scipy : SciPy)
    (target_price spot strike rate div_yield maturity : float)
    (dividends dividend_times : list float) (guess : float)
    (s1 s2 : Settings) :
  fst (implied_volatility_american_call_pde ql scipy target_price spot strike
         rate div_yield maturity dividends dividend_times guess s1)
  = fst (implied_volatility_american_call_pde ql scipy target_price spot
           strike rate div_yield maturity dividends dividend_times guess s2).
Proof.
  unfold implied_volatility_american_call_pde, try_except, bind.
  destruct (newton scipy guess None None) as [v|e|x k].
  - reflexivity.
  - simpl. destruct (isinstance e RuntimeError); reflexivity.
  - destruct (run_from_fixed_date ql
                (objective_function ql target_price spot strike rate
                   div_yield maturity dividends dividend_times) x k
                (objective_from_fixed_date ql target_price spot strike rate
                   div_yield maturity dividends dividend_times)) as [r Hr].
    rewrite (Hr s1), (Hr s2).
    destruct (rejects ql calculation_date) as [e|].
    + destruct (isinstance e RuntimeError); reflexivity.
    + reflexivity.
Qed.

(** X6: the solver leaves the process-wide evaluation date at 1 January
    2024 as soon as [newton] asks for one value of the objective and the
    calculation date can be built, also when the solver then returns
    [None] or raises; otherwise it leaves the settings as they were. *)
Theorem solver_settings (ql : QuantLib) (scipy : SciPy)
    (target_price spot strike rate div_yield maturity : float)
    (dividends dividend_times : list float) (guess : float) (s : Settings) :
  snd (implied_volatility_american_call_pde ql scipy target_price spot strike
         rate div_yield maturity dividends dividend_times guess s)
  = match newton scipy guess None None, rejects ql calculation_date with
    | Evaluate _ _, None => dated
    | _, _ => s
    end.
Proof.
  unfold implied_volatility_american_call_pde, try_except, bind.
  destruct (newton scipy guess None None) as [v|e|x k].
  - reflexivity.
  - simpl. destruct (isinstance e RuntimeError); reflexivity.
  - destruct (run_from_fixed_date ql
                (objective_function ql target_price spot strike rate
                   div_yield maturity dividends dividend_times) x k
                (objective_from_fixed_date ql target_price spot strike rate
                   div_yield maturity dividends dividend_times)) as [r Hr].
    rewrite (Hr s).
    destruct (rejects ql calculation_date) as [e|].
    + destruct (isinstance e RuntimeError); reflexivity.
    + destruct r as [v|e]; [reflexivity|].
      destruct (isinstance e RuntimeError); reflexivity.
Qed.

(** ** The solver and the lists *)

Lemma solver_same (ql : QuantLib) (scipy : SciPy)
    (target_price spot strike rate div_yield m1 m2 : float)
    (ds1 ds2 ts1 ts2 : list float) (guess : float) :
  (forall vol,
      same (price_american_call_pde ql spot strike rate div_yield m1 vol ds1
              ts1)
           (price_american_call_pde ql spot strike rate div_yield m2 vol ds2
              ts2)) ->
  same (implied_volatility_american_call_pde ql scipy target_price spot
          strike rate div_yield m1 ds1 ts1 guess)
       (implied_volatility_american_call_pde ql scipy target_price spot
          strike rate div_yield m2 ds2 ts2 guess).
Proof.
  intros H. unfold implied_volatility_american_call_pde.
  apply try_except_same. apply same_bind; [|intros; apply same_refl].
  apply run_same. intros vol. unfold objective_function.
  apply same_bind; [apply H | intros; apply same_refl].
Qed.

(** X8: the solver sees maturity and dividend times only through
    [int(t * 365)]: with the same day counts, the whole search and its
    result are the same. *)
Theorem solver_same_day_counts (ql : QuantLib) (scipy : SciPy)
    (target_price spot strike rate div_yield : float)
    (dividends : list float) (guess m1 m2 : float) (ts1 ts2 : list float)
    (s : Settings) :
  py_int (times_365 m1) = py_int (times_365 m2) ->
  map (fun t => py_int (times_365 t)) ts1
  = map (fun t => py_int (times_365 t)) ts2 ->
  implied_volatility_american_call_pde ql scipy target_price spot strike rate
    div_yield m1 dividends ts1 guess s
  = implied_volatility_american_call_pde ql scipy target_price spot strike
      rate div_yield m2 dividends ts2 guess s.
Proof.
  intros Hm Hts. apply solver_same. intros vol.
  apply price_same_day_counts; assumption.
Qed.

(** Two maturities of 365 days. *)
Lemma solver_same_day_counts_witness :
  implied_volatility_american_call_pde sample_ql sample_scipy 6.5 100 100
    0.0625 0.03125 1 [2; 1.5]%float [0.25; 0.75]%float 0.25 unset
  = implied_volatility_american_call_pde sample_ql sample_scipy 6.5 100 100
      0.0625 0.03125 1.001953125 [2; 1.5]%float [0.251953125; 0.75]%float
      0.25 unset.
Proof.
  apply (solver_same_day_counts sample_ql sample_scipy 6.5 100 100 0.0625
           0.03125 [2; 1.5]%float 0.25 1 1.001953125 [0.25; 0.75]%float
           [0.251953125; 0.75]%float unset);
    vm_compute; reflexivity.
Defined.

(** X9: the solver never reads the dividends beyond the number of dividend
    times; and when the dividend times beyond the number of dividends each
    become a date without an exception, the solver ends as it does on the
    lists cut to the shorter length. *)
Theorem solver_truncates_the_lists (ql : QuantLib) (scipy : SciPy)
    (target_price spot strike rate div_yield maturity : float)
    (dividends dividend_times : list float) (guess : float) (s : Settings) :
  implied_volatility_american_call_pde ql scipy target_price spot strike rate
    div_yield maturity dividends dividend_times guess s
  = implied_volatility_american_call_pde ql scipy target_price spot strike
      rate div_yield maturity
      (firstn (length dividend_times) dividends) dividend_times guess s
  /\ (Forall (converts ql calculation_date)
        (skipn (length dividends) dividend_times) ->
      implied_volatility_american_call_pde ql scipy target_price spot strike
        rate div_yield maturity dividends dividend_times guess s
      = implied_volatility_american_call_pde ql scipy target_price spot
          strike rate div_yield maturity dividends
          (firstn (length dividends) dividend_times) guess s).
Proof.
  split.
  - apply solver_same. intros vol. apply price_longer_dividends.
  - intros Hc. apply solver_same. intros vol.
    apply price_longer_times. exact Hc.
Qed.

(** One dividend and two dividend times. *)
Lemma solver_truncates_the_lists_witness :
  Forall (converts sample_ql calculation_date) [0.75%float]
  /\ implied_volatility_american_call_pde sample_ql sample_scipy 6.5 100 100
       0.0625 0.03125 1 [2%float] [0.25; 0.75]%float 0.25 unset
     = implied_volatility_american_call_pde sample_ql sample_scipy 6.5 100
         100 0.0625 0.03125 1 [2%float] [0.25%float] 0.25 unset.
Proof.
  assert (Hc : Forall (converts sample_ql calculation_date) [0.75%float]).
  { constructor; [|constructor]. exists 273%Z. repeat split. }
  split; [exact Hc|].
  exact (proj2 (solver_truncates_the_lists sample_ql sample_scipy 6.5 100 100
                  0.0625 0.03125 1 [2%float] [0.25; 0.75]%float 0.25 unset)
           Hc).
Defined.

(** ** The script of the module *)

(** X10: loading the module prints and ends in the same way whatever the
    settings were before, and leaves the process-wide evaluation date at
    1 January 2024 unless the calculation date cannot be built; this holds
    when the example is priced, when the solver returns [None] and when
    either of them raises. *)
Theorem module_script_settings (ql : QuantLib) (scipy : SciPy)
    (s1 s2 : Settings) :
  fst (module_script ql scipy s1) = fst (module_script ql scipy s2)
  /\ snd (module_script ql scipy s1)
     = match rejects ql calculation_date with
       | Some _ => s1
       | None => dated
       end.
Proof.
  unfold module_script.
  match goal with
  | |- context [price_american_call_pde ql ?a1 ?a2 ?a3 ?a4 ?a5 ?a6 ?a7 ?a8
                  s1] =>
      destruct (price_from_fixed_date ql a1 a2 a3 a4 a5 a6 a7 a8) as [r Hr]
  end.
  cbv zeta. rewrite (Hr s1), (Hr s2).
  destruct (rejects ql calculation_date) as [e|] eqn:E.
  - split; reflexivity.
  - destruct r as [option_price|e]; [|split; reflexivity].
    match goal with
    | |- context [implied_volatility_american_call_pde ql scipy ?t ?a1 ?a2
                    ?a3 ?a4 ?a5 ?a6 ?a7 ?a8 dated] =>
        pose proof (solver_settings ql scipy t a1 a2 a3 a4 a5 a6 a7 a8 dated)
          as Hs;
        destruct (implied_volatility_american_call_pde ql scipy t a1 a2 a3
                    a4 a5 a6 a7 a8 dated) as [[[v|]|e] s']
    end;
      simpl in Hs; rewrite E in Hs;
      (split; [reflexivity|]); simpl;
      destruct (newton scipy _ None None); exact Hs.
Qed.

(** * The pricer as a list of steps *)

Section Steps.

Variable ql : QuantLib.

Lemma first_error_app (l1 l2 : list step) :
  first_error ql (l1 ++ l2)
  = match first_error ql l1 with
    | Some e => Some e
    | None => first_error ql l2
    end.
Proof.
  induction l1 as [|st l1 IH]; simpl; [reflexivity|].
  destruct (step_error ql st); [reflexivity | exact IH].
Qed.


Lemma runs_ret {A} (a : A) : runs ql (ret a) [] a.
Proof. intros s. reflexivity. Qed.

Lemma runs_bind {A B} (c : M A) (k : A -> M B) l1 l2 (a : A) (b : B) :
  runs ql c l1 a -> runs ql (k a) l2 b -> runs ql (bind c k) (l1 ++ l2) b.
Proof.
  intros Hc Hk s. unfold bind. rewrite first_error_app.
  specialize (Hc s). destruct (c s) as [[a'|e'] s']; simpl in Hc.
  - destruct (first_error ql l1); [discriminate|].
    injection Hc as ->. apply Hk.
  - destruct (first_error ql l1); [|discriminate].
    injection Hc as ->. reflexivity.
Qed.

Lemma runs_new_bind {B} (o : obj) (k : obj -> M B) l (b : B) :
  runs ql (k o) l b -> runs ql (bind (new ql o) k) (Construct o :: l) b.
Proof.
  intros Hk s. unfold bind, new, lift. simpl.
  destruct (rejects ql o); [reflexivity | apply Hk].
Qed.

Lemma runs_set_bind {B} (d : obj) (k : unit -> M B) l (b : B) :
  runs ql (k tt) l b -> runs ql (bind (set_evaluationDate d) k) l b.
Proof. intros Hk s. unfold bind, set_evaluationDate. apply Hk. Qed.

Lemma runs_days_after d t :
  runs ql (days_after ql d t) (date_steps d t) (date_after d (days t)).
Proof.
  intros s. unfold days_after, date_steps, days, bind, new, lift. simpl.
  destruct (py_int (times_365 t)) as [n|e]; [|reflexivity].
  destruct (rejects ql (Period n Days)); [reflexivity|].
  unfold date_after. destruct (rejects ql (DatePlus d (Period n Days)));
    reflexivity.
Qed.

Lemma runs_dividend_dates d ts :
  runs ql (dividend_dates ql d ts) (flat_map (date_steps d) ts)
    (map (date_after d) (map days ts)).
Proof.
  induction ts as [|t ts IH].
  - apply runs_ret.
  - cbn [dividend_dates flat_map map].
    eapply runs_bind; [apply runs_days_after|].
    rewrite <- (app_nil_r (flat_map (date_steps d) ts)).
    eapply runs_bind; [exact IH | apply runs_ret].
Qed.

Lemma runs_append_dividends pairs l0 :
  runs ql (append_dividends ql pairs (DividendSchedule l0))
    (map (fun p => Construct (FixedDividend (snd p) (fst p))) pairs)
    (DividendSchedule
       (l0 ++ map (fun p => FixedDividend (snd p) (fst p)) pairs)).
Proof.
  revert l0. induction pairs as [|[date div] rest IH]; intros l0.
  - simpl. rewrite app_nil_r. apply runs_ret.
  - cbn [append_dividends map fst snd]. apply runs_new_bind.
    cbn [append]. pose proof (IH (l0 ++ [FixedDividend div date])) as H.
    rewrite <- app_assoc in H. exact H.
Qed.

Lemma runs_scheduled_dividends d ns (dividends : list float) :
  runs ql
    (append_dividends ql (combine (map (date_after d) ns) dividends)
       (DividendSchedule []))
    (map Construct (scheduled_dividends d ns dividends))
    (DividendSchedule (scheduled_dividends d ns dividends)).
Proof.
  rewrite <- (fixed_dividends_of_dates d ns dividends), map_map.
  apply (runs_append_dividends _ []).
Qed.

Lemma american_call_option_runs spot strike rate div_yield maturity
    volatility dividends dividend_times :
  runs ql
    (american_call_option ql spot strike rate div_yield maturity volatility
       dividends dividend_times)
    (pricer_steps spot strike rate div_yield maturity volatility dividends
       dividend_times)
    (built_option spot strike rate div_yield maturity volatility dividends
       dividend_times).
Proof.
  unfold american_call_option, pricer_steps.
  apply runs_new_bind. apply runs_set_bind.
  do 11 apply runs_new_bind.
  eapply runs_bind; [apply runs_days_after|].
  do 3 apply runs_new_bind.
  eapply runs_bind; [apply runs_dividend_dates|].
  apply runs_new_bind.
  eapply runs_bind; [apply runs_scheduled_dividends|].
  apply runs_new_bind. apply runs_ret.
Qed.


(** The pricer from any settings: the first failure, or [NPV()]. *)
Lemma price_cases spot strike rate div_yield maturity volatility dividends
    dividend_times s :
  (exists e,
      first_error ql
        (pricer_steps spot strike rate div_yield maturity volatility
           dividends dividend_times) = Some e
      /\ fst (price_american_call_pde ql spot strike rate div_yield maturity
                volatility dividends dividend_times s) = Raise e)
  \/ (first_error ql
        (pricer_steps spot strike rate div_yield maturity volatility
           dividends dividend_times) = None
      /\ price_american_call_pde ql spot strike rate div_yield maturity
           volatility dividends dividend_times s
         = (NPV ql dated
              (built_option spot strike rate div_yield maturity volatility
                 dividends dividend_times), dated)).
Proof.
  pose proof (american_call_option_runs spot strike rate div_yield maturity
                volatility dividends dividend_times s) as Hr.
  destruct (american_call_option_from_fixed_date ql spot strike rate
              div_yield maturity volatility dividends dividend_times)
    as [r Hf].
  specialize (Hf s). unfold price_american_call_pde, bind.
  destruct (first_error ql _) as [e|] eqn:E.
  - left. exists e. split; [reflexivity|].
    destruct (american_call_option ql spot strike rate div_yield maturity
                volatility dividends dividend_times s) as [[o|e'] s1];
      simpl in Hr; [discriminate|].
    injection Hr as ->. reflexivity.
  - right. split; [reflexivity|].
    assert (Hd : rejects ql calculation_date = None).
    { unfold pricer_steps in E. simpl in E.
      destruct (rejects ql calculation_date); [discriminate | reflexivity]. }
    rewrite Hd in Hf. rewrite Hf in Hr |- *. simpl in Hr. subst r.
    reflexivity.
Qed.

End Steps.

(** ** The pricer: inputs are not validated *)

(** C1, as the code has it: the pricer checks nothing.  For every input,
    whatever the signs of spot, volatility and maturity, it goes through
    the steps of lines 26-61 in order, the calls of the library and the
    conversions [int(t * 365)], and ends with the exception of the first
    step that fails or, when none fails, with what [NPV()] gives for the
    option built from the arguments. *)
Theorem price_is_the_first_failure (ql : QuantLib)
    (spot strike rate div_yield maturity volatility : float)
    (dividends dividend_times : list float) (s : Settings) :
  fst (price_american_call_pde ql spot strike rate div_yield maturity
         volatility dividends dividend_times s)
  = match first_error ql
            (pricer_steps spot strike rate div_yield maturity volatility
               dividends dividend_times) with
    | Some e => Raise e
    | None =>
        NPV ql dated
          (built_option spot strike rate div_yield maturity volatility
             dividends dividend_times)
    end.
Proof.
  destruct (price_cases ql spot strike rate div_yield maturity volatility
              dividends dividend_times s) as [[e [E H]]|[E H]];
    rewrite E.
  - exact H.
  - rewrite H. reflexivity.
Qed.

(** C1, as stated, fails.  With a QuantLib that has no [FDAmericanEngine],
    a spot of zero passes every step before the engine: the failure is the
    [AttributeError] of line 61, raised after line 27 has set the
    evaluation date, and it is the failure that a negative volatility, a
    maturity of zero and the valid input of the example get as well. *)
Lemma nonpositive_inputs_fail_at_the_engine :
  first_error engineless_ql
    (removelast
       (pricer_steps 0 100 0.0625 0.03125 1 0.25 [2; 1.5]%float
          [0.25; 0.75]%float)) = None
  /\ price_american_call_pde engineless_ql 0 100 0.0625 0.03125 1 0.25
       [2; 1.5]%float [0.25; 0.75]%float unset
     = (Raise AttributeError, dated)
  /\ fst (price_american_call_pde engineless_ql 100 100 0.0625 0.03125 1
            (-0.25) [2; 1.5]%float [0.25; 0.75]%float unset)
     = Raise AttributeError
  /\ fst (price_american_call_pde engineless_ql 100 100 0.0625 0.03125 0
            0.25 [2; 1.5]%float [0.25; 0.75]%float unset)
     = Raise AttributeError
  /\ fst (price_american_call_pde engineless_ql 100 100 0.0625 0.03125 1
            0.25 [2; 1.5]%float [0.25; 0.75]%float unset)
     = Raise AttributeError.
Proof. repeat split; vm_compute; reflexivity. Qed.



(** ** The solver: the search and its guard *)






(** X7: when [newton] starts by evaluating the objective at the guess and
    the pricer raises there, the guard of line 98 decides by the class of
    the exception: the solver returns [None] when it is an instance of
    [RuntimeError], the class itself or one that inherits from it, and
    raises the exception otherwise. *)
Theorem first_pricing_exception_and_the_guard (ql : QuantLib)
    (scipy : SciPy)
    (target_price spot strike rate div_yield maturity : float)
    (dividends dividend_times : list float) (guess : float) (s : Settings)
    (k : float -> strategy) (e : exn) :
  newton scipy guess None None = Evaluate guess k ->
  fst (price_american_call_pde ql spot strike rate div_yield maturity guess
         dividends dividend_times s) = Raise e ->
  fst (implied_volatility_american_call_pde ql scipy target_price spot strike
         rate div_yield maturity dividends dividend_times guess s)
  = if isinstance e RuntimeError then Ok None else Raise e.
Proof.
  intros Hn Hp.
  unfold implied_volatility_american_call_pde, try_except, bind.
  rewrite Hn. simpl run. unfold bind, objective_function, bind.
  destruct (price_american_call_pde ql spot strike rate div_yield maturity
              guess dividends dividend_times s) as [[v|e'] s1];
    simpl in Hp; [discriminate|].
  injection Hp as ->. destruct (isinstance e RuntimeError); reflexivity.
Qed.

(** A maturity that is not a number, and a library whose exercise raises
    an exception of a class that inherits from [RuntimeError]. *)
Lemma first_pricing_exception_and_the_guard_witness :
  fst (implied_volatility_american_call_pde sample_ql sample_scipy 6.25
         100 100 0.0625 0.03125 nan [2; 1.5]%float [0.25; 0.75]%float
         0.25 unset) = Raise ValueError
  /\ fst (implied_volatility_american_call_pde
            {| rejects := fun o =>
                 match o with
                 | AmericanExercise _ _ => Some NotImplementedError
                 | _ => None
                 end;
               NPV := sample_NPV |}
            sample_scipy 6.25 100 100 0.0625 0.03125 1 [2; 1.5]%float
            [0.25; 0.75]%float 0.25 unset) = Ok None.
Proof.
  split.
  - exact (first_pricing_exception_and_the_guard sample_ql sample_scipy 6.25
             100 100 0.0625 0.03125 nan [2; 1.5]%float [0.25; 0.75]%float
             0.25 unset _ ValueError eq_refl eq_refl).
  - exact (first_pricing_exception_and_the_guard
             {| rejects := fun o =>
                  match o with
                  | AmericanExercise _ _ => Some NotImplementedError
                  | _ => None
                  end;
                NPV := sample_NPV |}
             sample_scipy 6.25 100 100 0.0625 0.03125 1 [2; 1.5]%float
             [0.25; 0.75]%float 0.25 unset _ NotImplementedError eq_refl
             eq_refl).
Defined.
